(** * The publish task of tk-multi-publish2

    A shallow embedding of [python/tk_multi_publish2/processing/task.py]:
    the [Task] class, its factory [create_task], the comparison
    [is_same_task_type], the property accessors, the [settings] setter and
    the lifecycle methods [accept], [validate], [publish] and [finalize].

    Python objects live in a store and are designated by references; a
    method is a computation that threads the store and may raise. *)

From stdpp Require Import base option gmap strings list fin_maps.

Open Scope string_scope.

(** ** Python values *)

(** The values that flow through the class: what a plugin may put in the
    dictionary returned by [run_accept], what [run_validate] returns, and
    the values held by a settings mapping. *)
#[warnings="-register-all"] Inductive PyVal : Type :=
| VNone
| VBool (b : bool)
| VInt (n : Z)
| VStr (s : string)
| VList (l : list PyVal)
| VDict (items : list (string * PyVal))
| VObj (r : positive).

(** Python's truth value testing, as performed by [if x:]. An object
    without [__bool__] and [__len__] is true. *)
Definition truthy (v : PyVal) : bool :=
  match v with
  | VNone => false
  | VBool b => b
  | VInt n => negb (n =? 0)%Z
  | VStr s => negb (String.eqb s "")
  | VList l => match l with [] => false | _ :: _ => true end
  | VDict items => match items with [] => false | _ :: _ => true end
  | VObj _ => true
  end.

(** [d.get(key)]: the value under [key], [None] when the key is absent. *)
Definition dict_get (d : gmap string PyVal) (key : string) : PyVal :=
  match d !! key with
  | Some v => v
  | None => VNone
  end.

(** [d.get(key, default)]. *)
Definition dict_get_default (d : gmap string PyVal) (key : string)
    (default : PyVal) : PyVal :=
  match d !! key with
  | Some v => v
  | None => default
  end.

(** ** Exceptions and outcomes *)

Inductive PyExc : Type :=
| Exc (cls : string) (msg : string).

Inductive outcome (A : Type) : Type :=
| Ret (a : A)
| Raise (e : PyExc).

Arguments Ret {A} a.
Arguments Raise {A} e.

(** ** Objects *)

Abbreviation PluginRef := positive (only parsing).
Abbreviation ItemRef := positive (only parsing).
Abbreviation TaskRef := positive (only parsing).

(** The instance attributes set by [Task.__init__]. [_accepted] only ever
    receives the constants [True] and [False]; the three display flags
    receive whatever the plugin stored in its result. *)
Record Task : Type := mkTask {
  _plugin : PluginRef;
  _item : ItemRef;
  _settings : gmap string PyVal;
  _accepted : bool;
  _visible : PyVal;
  _enabled : PyVal;
  _checked : PyVal
}.

(** [Task.__init__(self, plugin, item, settings)] *)
Definition Task_init (plugin : PluginRef) (item : ItemRef)
    (settings : gmap string PyVal) : Task :=
  {| _plugin := plugin;
     _item := item;
     _settings := settings;
     _accepted := false;
     _visible := VBool true;
     _enabled := VBool true;
     _checked := VBool true |}.

(** ** Logging *)

Inductive Logger : Type :=
| ModuleLogger
| PluginLogger (plugin : PluginRef).

Inductive Level : Type := DEBUG | INFO.

Record LogRecord : Type := mkLogRecord {
  log_logger : Logger;
  log_level : Level;
  log_message : string;
  log_extra : PyVal
}.

(** ** The collaborators *)

(** Modelled from the spec: the plugin and item classes are not part of
    the file; the task consumes them through this interface only. Their
    methods act on a state [Env] of their own and may raise. A task's
    instance attributes are private to the task: no collaborator method
    writes them. [logger_info p msg extra] is the call
    [plugin.logger.info(msg, extra=extra)] on the logger of plugin [p]:
    it may raise as the other calls do, for one on an [extra] that the
    logger cannot read. *)
Class Collaborators (Env : Type) : Type := {
  plugin_name : PluginRef -> Env -> string;
  item_name : ItemRef -> Env -> string;
  plugin_str : PluginRef -> Env -> string;
  item_str : ItemRef -> Env -> string;
  plugin_add_task : PluginRef -> TaskRef -> Env -> outcome unit * Env;
  item_add_task : ItemRef -> TaskRef -> Env -> outcome unit * Env;
  logger_info : PluginRef -> string -> PyVal -> Env -> outcome unit * Env;
  run_accept :
    PluginRef -> gmap string PyVal -> ItemRef ->
    Env -> outcome (gmap string PyVal) * Env;
  run_validate :
    PluginRef -> gmap string PyVal -> ItemRef -> Env -> outcome PyVal * Env;
  run_publish :
    PluginRef -> gmap string PyVal -> ItemRef -> Env -> outcome PyVal * Env;
  run_finalize :
    PluginRef -> gmap string PyVal -> ItemRef -> Env -> outcome PyVal * Env
}.

(** ** The store *)

Record World (Env : Type) : Type := mkWorld {
  tasks : gmap TaskRef Task;
  log : list LogRecord;
  env : Env
}.

Arguments mkWorld {Env} tasks log env.
Arguments tasks {Env} w.
Arguments log {Env} w.
Arguments env {Env} w.

Section TaskClass.

Context {Env : Type} `{!Collaborators Env}.

(** ** Computations *)

Definition M (A : Type) : Type := World Env -> outcome A * World Env.

#[global] Instance M_ret : MRet M := fun A a w => (Ret a, w).

#[global] Instance M_bind : MBind M := fun A B f m w =>
  match m w with
  | (Ret a, w1) => f a w1
  | (Raise e, w1) => (Raise e, w1)
  end.

(** A collaborator call: it runs on the collaborators' state and leaves
    the tasks and the log as they are. *)
Definition call {A : Type} (f : Env -> outcome A * Env) : M A := fun w =>
  let (r, e1) := f (env w) in
  (r, mkWorld (tasks w) (log w) e1).

(** Reading an expression that depends on the collaborators' state, such
    as [plugin.name]. *)
Definition ask {A : Type} (f : Env -> A) : M A := fun w => (Ret (f (env w)), w).

(** Attribute read on a task. A reference that designates no object
    cannot be built in Python; the store answers it with an error. *)
Definition getattr {A : Type} (self : TaskRef) (field : Task -> A) : M A :=
  fun w =>
    match tasks w !! self with
    | Some t => (Ret (field t), w)
    | None => (Raise (Exc "ReferenceError" "no such task"), w)
    end.

(** Attribute write on a task. *)
Definition setattr (self : TaskRef) (update : Task -> Task) : M unit :=
  fun w =>
    match tasks w !! self with
    | Some t => (Ret tt, mkWorld (<[self := update t]> (tasks w)) (log w) (env w))
    | None => (Raise (Exc "ReferenceError" "no such task"), w)
    end.

Definition set_settings_field (v : gmap string PyVal) (t : Task) : Task :=
  mkTask (_plugin t) (_item t) v (_accepted t) (_visible t) (_enabled t) (_checked t).
Definition set_accepted_field (v : bool) (t : Task) : Task :=
  mkTask (_plugin t) (_item t) (_settings t) v (_visible t) (_enabled t) (_checked t).
Definition set_visible_field (v : PyVal) (t : Task) : Task :=
  mkTask (_plugin t) (_item t) (_settings t) (_accepted t) v (_enabled t) (_checked t).
Definition set_enabled_field (v : PyVal) (t : Task) : Task :=
  mkTask (_plugin t) (_item t) (_settings t) (_accepted t) (_visible t) v (_checked t).
Definition set_checked_field (v : PyVal) (t : Task) : Task :=
  mkTask (_plugin t) (_item t) (_settings t) (_accepted t) (_visible t) (_enabled t) v.

(** Object allocation: [Task(plugin, item, settings)] yields a reference
    that designates no earlier object. *)
Definition new_Task (plugin : PluginRef) (item : ItemRef)
    (settings : gmap string PyVal) : M TaskRef := fun w =>
  let r := fresh (dom (tasks w)) in
  (Ret r, mkWorld (<[r := Task_init plugin item settings]> (tasks w)) (log w) (env w)).

(** A record enters the log. This is all of [logger.debug(msg)] on the
    module's logger, which is given no [extra]. *)
Definition logger_emit (l : Logger) (lv : Level) (msg : string)
    (extra : PyVal) : M unit := fun w =>
  (Ret tt, mkWorld (tasks w) (log w ++ [mkLogRecord l lv msg extra]) (env w)).

(** [plugin.logger.info(msg, extra=extra)]: the call goes to the logger
    of the plugin and may raise; once it has returned, the record is in
    the log. *)
Definition plugin_logger_info (plugin : PluginRef) (msg : string)
    (extra : PyVal) : M unit :=
  call (logger_info plugin msg extra);;
  logger_emit (PluginLogger plugin) INFO msg extra.

(** ["Plugin: '%s' - Accepted: %s" % (plugin_name, item_name)] *)
Definition accepted_message (pn iname : string) : string :=
  "Plugin: '" ++ pn ++ "' - Accepted: " ++ iname.

(** ["Plugin: '%s' - Rejected: %s" % (plugin_name, item_name)] *)
Definition rejected_message (pn iname : string) : string :=
  "Plugin: '" ++ pn ++ "' - Rejected: " ++ iname.

(** ** Properties *)

Definition item (self : TaskRef) : M ItemRef := getattr self _item.
Definition plugin (self : TaskRef) : M PluginRef := getattr self _plugin.
Definition visible (self : TaskRef) : M PyVal := getattr self _visible.
Definition checked (self : TaskRef) : M PyVal := getattr self _checked.
Definition enabled (self : TaskRef) : M PyVal := getattr self _enabled.
Definition settings (self : TaskRef) : M (gmap string PyVal) :=
  getattr self _settings.

(** The [settings] setter. *)
Definition settings_setter (self : TaskRef) (settings : gmap string PyVal)
    : M unit :=
  setattr self (set_settings_field settings).

(** [Task.__repr__] *)
Definition Task_repr (self : TaskRef) : M string :=
  p ← getattr self _plugin;
  i ← getattr self _item;
  ps ← ask (plugin_str p);
  its ← ask (item_str i);
  mret ("<Task: " ++ ps ++ " for " ++ its ++ " >").

(** Modelled from the spec: [a == b] between two plugin objects. The
    plugin class is not part of the file; it defines no [__eq__] of its
    own, so [==] is the comparison every Python object inherits: two
    references are equal when they designate the same object. *)
Definition object_eq (a b : positive) : bool := bool_decide (a = b).

(** ** The factory *)

(** [Task.create_task(plugin, item, settings)] *)
Definition create_task (plugin : PluginRef) (item : ItemRef)
    (settings : gmap string PyVal) : M TaskRef :=
  task ← new_Task plugin item settings;
  call (plugin_add_task plugin task);;
  call (item_add_task item task);;
  shown ← Task_repr task;
  logger_emit ModuleLogger DEBUG ("Created " ++ shown) VNone;;
  mret task.

(** ** Comparison *)

(** [Task.is_same_task_type(self, other_task)] *)
Definition is_same_task_type (self other_task : TaskRef) : M bool :=
  p ← getattr self _plugin;
  q ← getattr other_task _plugin;
  mret (object_eq p q).

(** ** The lifecycle *)

(** [Task.accept(self)] *)
Definition accept (self : TaskRef) : M unit :=
  p ← plugin self;
  s ← settings self;
  i ← item self;
  accept_data ← call (run_accept p s i);
  if truthy (dict_get accept_data "accepted") then
    p ← plugin self;
    pn ← ask (plugin_name p);
    i ← item self;
    iname ← ask (item_name i);
    plugin_logger_info p (accepted_message pn iname)
      (dict_get accept_data "extra_info");;
    setattr self
      (set_visible_field (dict_get_default accept_data "visible" (VBool true)));;
    setattr self
      (set_enabled_field (dict_get_default accept_data "enabled" (VBool true)));;
    was_accepted ← getattr self _accepted;
    if negb was_accepted then
      setattr self (set_accepted_field true);;
      setattr self
        (set_checked_field (dict_get_default accept_data "checked" (VBool true)))
    else
      mret tt
  else
    p ← plugin self;
    pn ← ask (plugin_name p);
    i ← item self;
    iname ← ask (item_name i);
    plugin_logger_info p (rejected_message pn iname)
      (dict_get accept_data "extra_info");;
    setattr self (set_accepted_field false);;
    setattr self (set_enabled_field (VBool false));;
    setattr self (set_checked_field (VBool false)).

(** [Task.validate(self)] *)
Definition validate (self : TaskRef) : M PyVal :=
  p ← plugin self;
  s ← settings self;
  i ← item self;
  call (run_validate p s i).

(** [Task.publish(self)] *)
Definition publish (self : TaskRef) : M unit :=
  p ← plugin self;
  s ← settings self;
  i ← item self;
  call (run_publish p s i);;
  mret tt.

(** [Task.finalize(self)] *)
Definition finalize (self : TaskRef) : M unit :=
  p ← plugin self;
  s ← settings self;
  i ← item self;
  call (run_finalize p s i);;
  mret tt.

End TaskClass.

(** ** The standard logger *)

(** The attributes of a log record that [extra] may not overwrite. *)
Definition reserved_keys : list string :=
  ["message"; "asctime"; "name"; "msg"; "args"; "levelname"; "levelno";
   "pathname"; "filename"; "module"; "exc_info"; "exc_text"; "stack_info";
   "lineno"; "funcName"; "created"; "msecs"; "relativeCreated"; "thread";
   "threadName"; "processName"; "process"].

(** Modelled from the spec: the plugin's logger is not part of the file.
    The collaborators below use a logger that reads [extra] as Python's
    [logging] does when it makes the record: [None] is fine, a mapping is
    copied key by key into the record and must not hold a reserved key,
    and a value that is no mapping cannot be read that way. An empty
    string or list gives nothing to copy. (Python would also let through
    a list that holds nothing but its own indices; this logger refuses
    every list that is not empty.) *)
Definition standard_logger_info (extra : PyVal) : outcome unit :=
  match extra with
  | VNone => Ret tt
  | VDict items =>
      match List.find (fun key => bool_decide (key ∈ reserved_keys))
              (List.map fst items) with
      | Some key => Raise (Exc "KeyError" ("Attempt to overwrite " ++ key))
      | None => Ret tt
      end
  | VStr "" => Ret tt
  | VList [] => Ret tt
  | _ => Raise (Exc "TypeError" "extra is not a mapping")
  end.

(** ** Scripted collaborators

    One implementation of the interface, to run the class on. A plugin and
    an item each keep the collection of the tasks bound to them; the
    plugins answer [run_accept] and [run_validate] with a canned result. *)
Module Scripted.

Record Env : Type := mkEnv {
  plugin_tasks : gmap PluginRef (list TaskRef);
  item_tasks : gmap ItemRef (list TaskRef);
  accept_answer : outcome (gmap string PyVal);
  validate_answer : outcome PyVal
}.

(** What Python raises on [x.add_task(task)] when [x] is an object
    without that method. *)
Definition no_add_task : PyExc :=
  Exc "AttributeError" "object has no attribute 'add_task'".

(** Modelled from the spec: [Plugin.add_task] is not part of the file. It
    appends the task to the plugin's collection of bound tasks; on an
    object that is not a plugin the call raises. *)
Definition append_to_plugin (p : PluginRef) (task : TaskRef) (e : Env)
    : outcome unit * Env :=
  match plugin_tasks e !! p with
  | Some bound =>
      (Ret tt,
       mkEnv (<[p := (bound ++ [task])%list]> (plugin_tasks e)) (item_tasks e)
         (accept_answer e) (validate_answer e))
  | None => (Raise no_add_task, e)
  end.

(** Modelled from the spec: [Item.add_task] is not part of the file. It
    appends the task to the item's collection of bound tasks; on an object
    that is not an item the call raises. *)
Definition append_to_item (i : ItemRef) (task : TaskRef) (e : Env)
    : outcome unit * Env :=
  match item_tasks e !! i with
  | Some bound =>
      (Ret tt,
       mkEnv (plugin_tasks e) (<[i := (bound ++ [task])%list]> (item_tasks e))
         (accept_answer e) (validate_answer e))
  | None => (Raise no_add_task, e)
  end.

#[global] Instance collaborators : Collaborators Env := {|
  plugin_name := fun _ _ => "publish";
  item_name := fun _ _ => "scene";
  plugin_str := fun _ _ => "<Plugin publish>";
  item_str := fun _ _ => "<Item scene>";
  plugin_add_task := append_to_plugin;
  item_add_task := append_to_item;
  logger_info := fun _ _ extra e => (standard_logger_info extra, e);
  run_accept := fun _ _ _ e => (accept_answer e, e);
  run_validate := fun _ _ _ e => (validate_answer e, e);
  run_publish := fun _ _ _ e => (Ret VNone, e);
  run_finalize := fun _ _ _ e => (Ret VNone, e)
|}.

(** Whether [task] is in the collection of plugin [p]. *)
Definition registered_with_plugin (e : Env) (p : PluginRef) (task : TaskRef)
    : bool :=
  match plugin_tasks e !! p with
  | Some bound => bool_decide (task ∈ bound)
  | None => false
  end.

(** Whether [task] is in the collection of item [i]. *)
Definition registered_with_item (e : Env) (i : ItemRef) (task : TaskRef)
    : bool :=
  match item_tasks e !! i with
  | Some bound => bool_decide (task ∈ bound)
  | None => false
  end.

(** A store with plugin 1 and item 1, no task yet. *)
Definition empty_world (answer : outcome (gmap string PyVal))
    (verdict : outcome PyVal) : World Env :=
  mkWorld ∅ [] (mkEnv {[1%positive := []]} {[1%positive := []]} answer verdict).

(** A store with plugin 1, item 1 and the task [t] at reference 1. *)
Definition world_with (t : Task) (answer : outcome (gmap string PyVal))
    (verdict : outcome PyVal) : World Env :=
  mkWorld {[1%positive := t]} []
    (mkEnv {[1%positive := [1%positive]]} {[1%positive := [1%positive]]}
       answer verdict).

(** A task that was accepted earlier and that the user unchecked since. *)
Definition unchecked_task : Task :=
  mkTask 1 1 ∅ true (VBool true) (VBool true) (VBool false).

(** Answers of [run_accept]. *)
Definition yes_hidden : gmap string PyVal :=
  {[ "accepted" := VBool true; "visible" := VBool false;
     "enabled" := VBool true; "checked" := VBool false ]}.
Definition yes_only : gmap string PyVal := {[ "accepted" := VBool true ]}.
Definition no_only : gmap string PyVal := {[ "accepted" := VBool false ]}.
Definition no_flag : gmap string PyVal :=
  {[ "extra_info" := VDict [("reason", VStr "skipped")] ]}.
Definition yes_as_number : gmap string PyVal := {[ "accepted" := VInt 7 ]}.

(** The store after [create_task] ran for plugin 1 and item 1 on
    [empty_world]. *)
Definition after_creation : World Env :=
  mkWorld {[ 1%positive := Task_init 1 1 ∅ ]}
    [mkLogRecord ModuleLogger DEBUG
       "Created <Task: <Plugin publish> for <Item scene> >" VNone]
    (mkEnv {[ 1%positive := [1%positive] ]} {[ 1%positive := [1%positive] ]}
       (Ret yes_only) (Ret VNone)).

(** A store where tasks 1 and 2 are bound to plugin 1, on different items
    and with different settings, and task 3 is bound to plugin 2. *)
Definition three_tasks : World Env :=
  mkWorld
    {[ 1%positive := Task_init 1 1 ∅;
       2%positive := Task_init 1 2 {[ "depth" := VInt 3 ]};
       3%positive := Task_init 2 1 ∅ ]}
    []
    (mkEnv {[ 1%positive := [1%positive; 2%positive];
              2%positive := [3%positive] ]}
       {[ 1%positive := [1%positive; 3%positive];
          2%positive := [2%positive] ]}
       (Ret yes_only) (Ret VNone)).

(** A task whose settings hold the key "old" only. *)
Definition task_with_old_settings : Task :=
  mkTask 1 1 {[ "old" := VInt 1 ]} false (VBool true) (VBool true) (VBool true).

End Scripted.

(** ** Replaying collaborators

    A second implementation of the interface: the plugin's answers to
    [run_accept] are read off a list, one per call, as when a driver runs
    acceptance again after something changed. Registration keeps no
    record. *)
Module Replay.

Definition exhausted : PyExc := Exc "StopIteration" "no answer left".

(** The next answer of the list; an exception when none is left. *)
Definition next_answer (e : list (gmap string PyVal))
    : outcome (gmap string PyVal) * list (gmap string PyVal) :=
  match e with
  | answer :: rest => (Ret answer, rest)
  | [] => (Raise exhausted, [])
  end.

#[global] Instance collaborators
    : Collaborators (list (gmap string PyVal)) := {|
  plugin_name := fun _ _ => "publish";
  item_name := fun _ _ => "scene";
  plugin_str := fun _ _ => "<Plugin publish>";
  item_str := fun _ _ => "<Item scene>";
  plugin_add_task := fun _ _ e => (Ret tt, e);
  item_add_task := fun _ _ e => (Ret tt, e);
  logger_info := fun _ _ extra e => (standard_logger_info extra, e);
  run_accept := fun _ _ _ e => next_answer e;
  run_validate := fun _ _ _ e => (Ret (VBool true), e);
  run_publish := fun _ _ _ e => (Ret (VStr "published"), e);
  run_finalize := fun _ _ _ e => (Raise (Exc "IOError" "disk full"), e)
|}.

(** A store with the task [t] at reference 1 and the answers to come. *)
Definition world_with (t : Task) (answers : list (gmap string PyVal))
    : World (list (gmap string PyVal)) :=
  mkWorld {[ 1%positive := t ]} [] answers.

(** Answers that carry a string where the logger expects a mapping. *)
Definition yes_with_note : gmap string PyVal :=
  {[ "accepted" := VBool true; "extra_info" := VStr "note" ]}.
Definition no_with_note : gmap string PyVal :=
  {[ "accepted" := VBool false; "extra_info" := VStr "note" ]}.

(** A store with three tasks bound to plugin 1, on three items. *)
Definition three_alike : World (list (gmap string PyVal)) :=
  mkWorld
    {[ 1%positive := Task_init 1 1 ∅;
       2%positive := Task_init 1 2 ∅;
       3%positive := Task_init 1 3 ∅ ]}
    [] [].

(** A store without any task. *)
Definition no_task : World (list (gmap string PyVal)) := mkWorld ∅ [] [].

(** The store after a task was created on [no_task] for plugin 1 and
    item 1, without settings. *)
Definition one_task : World (list (gmap string PyVal)) :=
  mkWorld {[ 1%positive := Task_init 1 1 ∅ ]}
    [mkLogRecord ModuleLogger DEBUG
       "Created <Task: <Plugin publish> for <Item scene> >" VNone]
    [].

(** The store after a second task was created, for plugin 1 and item 2,
    with a setting. *)
Definition two_tasks : World (list (gmap string PyVal)) :=
  mkWorld
    {[ 1%positive := Task_init 1 1 ∅;
       2%positive := Task_init 1 2 {[ "depth" := VInt 3 ]} ]}
    [mkLogRecord ModuleLogger DEBUG
       "Created <Task: <Plugin publish> for <Item scene> >" VNone;
     mkLogRecord ModuleLogger DEBUG
       "Created <Task: <Plugin publish> for <Item scene> >" VNone]
    [].

(** The store after a second task was created, for plugin 2 and item 1. *)
Definition two_plugins : World (list (gmap string PyVal)) :=
  mkWorld
    {[ 1%positive := Task_init 1 1 ∅; 2%positive := Task_init 2 1 ∅ ]}
    [mkLogRecord ModuleLogger DEBUG
       "Created <Task: <Plugin publish> for <Item scene> >" VNone;
     mkLogRecord ModuleLogger DEBUG
       "Created <Task: <Plugin publish> for <Item scene> >" VNone]
    [].

End Replay.

(** ** Settings-driven collaborators

    A third implementation of the interface: the plugin decides from the
    settings it is handed. It accepts with the settings themselves as its
    answer, and it validates with what the settings hold under "valid". *)
Module Echo.

#[global] Instance collaborators : Collaborators unit := {|
  plugin_name := fun _ _ => "publish";
  item_name := fun _ _ => "scene";
  plugin_str := fun _ _ => "<Plugin publish>";
  item_str := fun _ _ => "<Item scene>";
  plugin_add_task := fun _ _ e => (Ret tt, e);
  item_add_task := fun _ _ e => (Ret tt, e);
  logger_info := fun _ _ extra e => (standard_logger_info extra, e);
  run_accept := fun _ s _ e => (Ret s, e);
  run_validate := fun _ s _ e => (Ret (dict_get s "valid"), e);
  run_publish := fun _ _ _ e => (Ret VNone, e);
  run_finalize := fun _ _ _ e => (Ret VNone, e)
|}.

(** A store with the task [t] at reference 1. *)
Definition world_with (t : Task) : World unit :=
  mkWorld {[ 1%positive := t ]} [] tt.

(** Settings under which the plugin rejects and finds the task valid, and
    settings under which it accepts, unchecked, and finds it invalid. *)
Definition draft : gmap string PyVal :=
  {[ "accepted" := VBool false; "valid" := VBool true ]}.
Definition final : gmap string PyVal :=
  {[ "accepted" := VBool true; "checked" := VBool false;
     "valid" := VBool false ]}.

End Echo.

(** * Properties *)

Section TaskFacts.

Context {Env : Type} `{!Collaborators Env}.

Implicit Types (w : World Env) (t : Task) (self : TaskRef).

(** ** Stepping through a computation *)

Lemma bind_ret {A B : Type} (a : A) (k : A -> M B) w :
  (mret a ≫= k) w = k a w.
Proof. reflexivity. Qed.

Lemma bind_assoc {A B C : Type} (m : M A) (f : A -> M B) (g : B -> M C) w :
  ((m ≫= f) ≫= g) w = (m ≫= fun a => f a ≫= g) w.
Proof.
  unfold mbind, M_bind. by destruct (m w) as [[a | x] w1].
Qed.

Lemma bind_getattr {A B : Type} self t (field : Task -> A) (k : A -> M B) w :
  tasks w !! self = Some t ->
  (getattr self field ≫= k) w = k (field t) w.
Proof.
  intros Hlive. unfold mbind, M_bind, getattr. by rewrite Hlive.
Qed.

Lemma bind_setattr {B : Type} self t (update : Task -> Task)
    (k : unit -> M B) w :
  tasks w !! self = Some t ->
  (setattr self update ≫= k) w =
  k tt (mkWorld (<[self := update t]> (tasks w)) (log w) (env w)).
Proof.
  intros Hlive. unfold mbind, M_bind, setattr. by rewrite Hlive.
Qed.

Lemma run_setattr self t (update : Task -> Task) w :
  tasks w !! self = Some t ->
  setattr self update w =
  (Ret tt, mkWorld (<[self := update t]> (tasks w)) (log w) (env w)).
Proof.
  intros Hlive. unfold setattr. by rewrite Hlive.
Qed.

Lemma bind_call_ret {A B : Type} (f : Env -> outcome A * Env) (a : A)
    (e1 : Env) (k : A -> M B) w :
  f (env w) = (Ret a, e1) ->
  (call f ≫= k) w = k a (mkWorld (tasks w) (log w) e1).
Proof.
  intros Hf. unfold mbind, M_bind, call. by rewrite Hf.
Qed.

Lemma bind_call_raise {A B : Type} (f : Env -> outcome A * Env) (x : PyExc)
    (e1 : Env) (k : A -> M B) w :
  f (env w) = (Raise x, e1) ->
  (call f ≫= k) w = (Raise x, mkWorld (tasks w) (log w) e1).
Proof.
  intros Hf. unfold mbind, M_bind, call. by rewrite Hf.
Qed.

Lemma bind_ask {A B : Type} (f : Env -> A) (k : A -> M B) w :
  (ask f ≫= k) w = k (f (env w)) w.
Proof. reflexivity. Qed.

Lemma bind_logger_emit {B : Type} l lv msg extra (k : unit -> M B) w :
  (logger_emit l lv msg extra ≫= k) w =
  k tt (mkWorld (tasks w) (log w ++ [mkLogRecord l lv msg extra]) (env w)).
Proof. reflexivity. Qed.

Lemma bind_plugin_logger_info_ret {B : Type} p msg extra (e2 : Env)
    (k : unit -> M B) w :
  logger_info p msg extra (env w) = (Ret tt, e2) ->
  (plugin_logger_info p msg extra ≫= k) w =
  k tt
    (mkWorld (tasks w)
       (log w ++ [mkLogRecord (PluginLogger p) INFO msg extra]) e2).
Proof.
  intros Hlog. unfold plugin_logger_info. rewrite bind_assoc.
  by erewrite bind_call_ret.
Qed.

Lemma bind_plugin_logger_info_raise {B : Type} p msg extra (x : PyExc)
    (e2 : Env) (k : unit -> M B) w :
  logger_info p msg extra (env w) = (Raise x, e2) ->
  (plugin_logger_info p msg extra ≫= k) w =
  (Raise x, mkWorld (tasks w) (log w) e2).
Proof.
  intros Hlog. unfold plugin_logger_info. rewrite bind_assoc.
  by erewrite bind_call_raise.
Qed.

(** ** The two branches of [accept] *)

Ltac step :=
  first
    [ rewrite bind_ret
    | rewrite bind_ask
    | rewrite bind_logger_emit
    | erewrite bind_getattr by (simpl; first [eassumption | apply lookup_insert_eq])
    | erewrite bind_setattr by (simpl; first [eassumption | apply lookup_insert_eq])
    | erewrite run_setattr by (simpl; first [eassumption | apply lookup_insert_eq])
    | erewrite bind_call_ret by (simpl; eassumption)
    | erewrite bind_plugin_logger_info_ret by (simpl; eassumption) ];
  cbn [tasks log env].

Lemma accept_truthy self t d e1 e2 w :
  tasks w !! self = Some t ->
  run_accept (_plugin t) (_settings t) (_item t) (env w) = (Ret d, e1) ->
  truthy (dict_get d "accepted") = true ->
  logger_info (_plugin t)
    (accepted_message (plugin_name (_plugin t) e1) (item_name (_item t) e1))
    (dict_get d "extra_info") e1 = (Ret tt, e2) ->
  accept self w =
  (Ret tt,
   mkWorld
     (<[self :=
          mkTask (_plugin t) (_item t) (_settings t) true
            (dict_get_default d "visible" (VBool true))
            (dict_get_default d "enabled" (VBool true))
            (if _accepted t then _checked t
             else dict_get_default d "checked" (VBool true))]> (tasks w))
     (log w ++
      [mkLogRecord (PluginLogger (_plugin t)) INFO
         (accepted_message (plugin_name (_plugin t) e1)
            (item_name (_item t) e1))
         (dict_get d "extra_info")])
     e2).
Proof.
  intros Hlive Hrun Hyes Hlog. unfold accept, plugin, settings, item.
  do 4 step. rewrite Hyes. do 8 step.
  destruct t as [p i s [] v e c];
    cbn [negb set_enabled_field set_visible_field _accepted _plugin _item
         _settings _visible _enabled _checked];
    repeat step;
    cbn [set_accepted_field set_checked_field _accepted _plugin _item
         _settings _visible _enabled _checked];
    by rewrite !insert_insert_eq.
Qed.

Lemma accept_falsy self t d e1 e2 w :
  tasks w !! self = Some t ->
  run_accept (_plugin t) (_settings t) (_item t) (env w) = (Ret d, e1) ->
  truthy (dict_get d "accepted") = false ->
  logger_info (_plugin t)
    (rejected_message (plugin_name (_plugin t) e1) (item_name (_item t) e1))
    (dict_get d "extra_info") e1 = (Ret tt, e2) ->
  accept self w =
  (Ret tt,
   mkWorld
     (<[self :=
          mkTask (_plugin t) (_item t) (_settings t) false
            (_visible t) (VBool false) (VBool false)]> (tasks w))
     (log w ++
      [mkLogRecord (PluginLogger (_plugin t)) INFO
         (rejected_message (plugin_name (_plugin t) e1)
            (item_name (_item t) e1))
         (dict_get d "extra_info")])
     e2).
Proof.
  intros Hlive Hrun Hno Hlog. unfold accept, plugin, settings, item.
  do 4 step. rewrite Hno. repeat step.
  destruct t as [p i s a v e c];
    cbn [set_accepted_field set_enabled_field set_checked_field _accepted
         _plugin _item _settings _visible _enabled _checked].
  by rewrite !insert_insert_eq.
Qed.

Lemma accept_logger_raises self t d x e1 e2 w :
  tasks w !! self = Some t ->
  run_accept (_plugin t) (_settings t) (_item t) (env w) = (Ret d, e1) ->
  logger_info (_plugin t)
    (if truthy (dict_get d "accepted")
     then accepted_message (plugin_name (_plugin t) e1)
            (item_name (_item t) e1)
     else rejected_message (plugin_name (_plugin t) e1)
            (item_name (_item t) e1))
    (dict_get d "extra_info") e1 = (Raise x, e2) ->
  accept self w = (Raise x, mkWorld (tasks w) (log w) e2).
Proof.
  intros Hlive Hrun Hlog. unfold accept, plugin, settings, item.
  do 4 step.
  destruct (truthy (dict_get d "accepted")); do 4 step;
    by erewrite bind_plugin_logger_info_raise.
Qed.

Lemma accept_raises self t x e1 w :
  tasks w !! self = Some t ->
  run_accept (_plugin t) (_settings t) (_item t) (env w) = (Raise x, e1) ->
  accept self w = (Raise x, mkWorld (tasks w) (log w) e1).
Proof.
  intros Hlive Hrun. unfold accept, plugin, settings, item.
  do 3 step. by erewrite bind_call_raise.
Qed.

Lemma dict_get_present (d : gmap string PyVal) key v :
  d !! key = Some v -> dict_get d key = v.
Proof. intros Hkey. unfold dict_get. by rewrite Hkey. Qed.

Lemma dict_get_absent (d : gmap string PyVal) key :
  d !! key = None -> dict_get d key = VNone.
Proof. intros Hkey. unfold dict_get. by rewrite Hkey. Qed.

(** ** Acceptance *)

(** C2. When a task that is already accepted is accepted again and the
    plugin's logger takes the record, the call returns, the checked flag
    is the one the task had before the call, whatever the plugin answered
    for it, and the visible and enabled flags are taken from the new
    answer. *)
Theorem accept_again_keeps_checked self t d e1 e2 w :
  tasks w !! self = Some t ->
  _accepted t = true ->
  run_accept (_plugin t) (_settings t) (_item t) (env w) = (Ret d, e1) ->
  d !! "accepted" = Some (VBool true) ->
  logger_info (_plugin t)
    (accepted_message (plugin_name (_plugin t) e1) (item_name (_item t) e1))
    (dict_get d "extra_info") e1 = (Ret tt, e2) ->
  exists w' t',
    accept self w = (Ret tt, w') /\
    tasks w' !! self = Some t' /\
    _checked t' = _checked t /\
    _visible t' = dict_get_default d "visible" (VBool true) /\
    _enabled t' = dict_get_default d "enabled" (VBool true) /\
    _accepted t' = true.
Proof.
  intros Hlive Hwas Hrun Hflag Hlog.
  eexists _, _. split.
  - apply (accept_truthy self t d e1 e2 w); [done | done | | done].
    by rewrite (dict_get_present d "accepted" (VBool true)).
  - cbn [tasks]. rewrite lookup_insert_eq. split; [done |].
    cbn [_checked _visible _enabled _accepted]. by rewrite Hwas.
Qed.

(** C3. Whatever the state of the task, an answer whose accepted flag is
    false, once the plugin's logger has taken the record, turns accepted,
    enabled and checked off and leaves visible as it was. *)
Theorem accept_rejection_forces_off self t d e1 e2 w :
  tasks w !! self = Some t ->
  run_accept (_plugin t) (_settings t) (_item t) (env w) = (Ret d, e1) ->
  d !! "accepted" = Some (VBool false) ->
  logger_info (_plugin t)
    (rejected_message (plugin_name (_plugin t) e1) (item_name (_item t) e1))
    (dict_get d "extra_info") e1 = (Ret tt, e2) ->
  exists w' t',
    accept self w = (Ret tt, w') /\
    tasks w' !! self = Some t' /\
    _accepted t' = false /\
    _enabled t' = VBool false /\
    _checked t' = VBool false /\
    _visible t' = _visible t.
Proof.
  intros Hlive Hrun Hflag Hlog.
  eexists _, _. split.
  - apply (accept_falsy self t d e1 e2 w); [done | done | | done].
    by rewrite (dict_get_present d "accepted" (VBool false)).
  - cbn [tasks]. by rewrite lookup_insert_eq.
Qed.

(** C4. On a task that is not accepted yet, an answer whose accepted flag
    is true, once the plugin's logger has taken the record, sets visible,
    enabled and checked to the value the answer holds for each, and to
    true where the answer holds none; the answer made of the accepted flag
    alone yields a task that is accepted, visible, enabled and checked. *)
Theorem accept_first_time_takes_answer self t d e1 e2 w :
  tasks w !! self = Some t ->
  _accepted t = false ->
  run_accept (_plugin t) (_settings t) (_item t) (env w) = (Ret d, e1) ->
  d !! "accepted" = Some (VBool true) ->
  logger_info (_plugin t)
    (accepted_message (plugin_name (_plugin t) e1) (item_name (_item t) e1))
    (dict_get d "extra_info") e1 = (Ret tt, e2) ->
  exists w' t',
    accept self w = (Ret tt, w') /\
    tasks w' !! self = Some t' /\
    _accepted t' = true /\
    (forall v, d !! "visible" = Some v -> _visible t' = v) /\
    (d !! "visible" = None -> _visible t' = VBool true) /\
    (forall v, d !! "enabled" = Some v -> _enabled t' = v) /\
    (d !! "enabled" = None -> _enabled t' = VBool true) /\
    (forall v, d !! "checked" = Some v -> _checked t' = v) /\
    (d !! "checked" = None -> _checked t' = VBool true) /\
    (d = {[ "accepted" := VBool true ]} ->
     _visible t' = VBool true /\ _enabled t' = VBool true /\
     _checked t' = VBool true).
Proof.
  intros Hlive Hwas Hrun Hflag Hlog.
  eexists _, _. split.
  - apply (accept_truthy self t d e1 e2 w); [done | done | | done].
    by rewrite (dict_get_present d "accepted" (VBool true)).
  - cbn [tasks]. rewrite lookup_insert_eq. split; [done |].
    cbn [_checked _visible _enabled _accepted]. rewrite Hwas.
    unfold dict_get_default.
    split; [done |].
    split; [intros v Hkey; by rewrite Hkey |].
    split; [intros Hkey; by rewrite Hkey |].
    split; [intros v Hkey; by rewrite Hkey |].
    split; [intros Hkey; by rewrite Hkey |].
    split; [intros v Hkey; by rewrite Hkey |].
    split; [intros Hkey; by rewrite Hkey |].
    intros ->. by rewrite !lookup_singleton_ne.
Qed.

(** C6. An answer without the accepted flag is handled as a rejection:
    once the plugin's logger has taken the record of the rejection, the
    call returns normally, accepted, enabled and checked are off, visible
    is as it was, and the record is in the log. *)
Theorem accept_missing_flag_rejects self t d e1 e2 w :
  tasks w !! self = Some t ->
  run_accept (_plugin t) (_settings t) (_item t) (env w) = (Ret d, e1) ->
  d !! "accepted" = None ->
  logger_info (_plugin t)
    (rejected_message (plugin_name (_plugin t) e1) (item_name (_item t) e1))
    (dict_get d "extra_info") e1 = (Ret tt, e2) ->
  exists w' t',
    accept self w = (Ret tt, w') /\
    tasks w' !! self = Some t' /\
    _accepted t' = false /\
    _enabled t' = VBool false /\
    _checked t' = VBool false /\
    _visible t' = _visible t /\
    log w' =
    (log w ++
     [mkLogRecord (PluginLogger (_plugin t)) INFO
        (rejected_message (plugin_name (_plugin t) e1)
           (item_name (_item t) e1))
        (dict_get d "extra_info")])%list.
Proof.
  intros Hlive Hrun Hflag Hlog.
  eexists _, _. split.
  - apply (accept_falsy self t d e1 e2 w); [done | done | | done].
    by rewrite (dict_get_absent d "accepted").
  - cbn [tasks log]. by rewrite lookup_insert_eq.
Qed.

(** C10. The branch of [accept] follows the truth value of what the answer
    holds under the accepted key, not its equality with [True]: the
    message handed to the plugin's logger is the acceptance when that
    value is true in Python's sense and the rejection otherwise, and once
    the logger has taken it, the call returns, the record is in the log
    and the task is accepted exactly when the value is true. A number
    other than zero and a string other than the empty one are true;
    [False], [None], zero and the empty string are false. *)
Theorem accept_branches_on_truth_value self t d e1 e2 w :
  tasks w !! self = Some t ->
  run_accept (_plugin t) (_settings t) (_item t) (env w) = (Ret d, e1) ->
  logger_info (_plugin t)
    (if truthy (dict_get d "accepted")
     then accepted_message (plugin_name (_plugin t) e1)
            (item_name (_item t) e1)
     else rejected_message (plugin_name (_plugin t) e1)
            (item_name (_item t) e1))
    (dict_get d "extra_info") e1 = (Ret tt, e2) ->
  (exists w' t',
     accept self w = (Ret tt, w') /\
     tasks w' !! self = Some t' /\
     _accepted t' = truthy (dict_get d "accepted") /\
     log w' =
     (log w ++
      [mkLogRecord (PluginLogger (_plugin t)) INFO
         (if truthy (dict_get d "accepted")
          then accepted_message (plugin_name (_plugin t) e1)
                 (item_name (_item t) e1)
          else rejected_message (plugin_name (_plugin t) e1)
                 (item_name (_item t) e1))
         (dict_get d "extra_info")])%list) /\
  (forall n, n <> 0%Z -> truthy (VInt n) = true) /\
  (forall s, s <> "" -> truthy (VStr s) = true) /\
  truthy (VBool true) = true /\
  truthy (VBool false) = false /\
  truthy VNone = false /\
  truthy (VInt 0) = false /\
  truthy (VStr "") = false.
Proof.
  intros Hlive Hrun Hlog. split.
  - destruct (truthy (dict_get d "accepted")) eqn:Hflag.
    + eexists _, _. split; [by apply (accept_truthy self t d e1 e2 w) |].
      cbn [tasks log]. by rewrite lookup_insert_eq.
    + eexists _, _. split; [by apply (accept_falsy self t d e1 e2 w) |].
      cbn [tasks log]. by rewrite lookup_insert_eq.
  - repeat split.
    + intros n Hn. cbn [truthy]. by destruct (Z.eqb_spec n 0).
    + intros s Hs. cbn [truthy]. by destruct (String.eqb_spec s "").
Qed.

(** ** The factory *)

Lemma bind_new_Task {B : Type} p i s (k : TaskRef -> M B) w :
  (new_Task p i s ≫= k) w =
  k (fresh (dom (tasks w)))
    (mkWorld (<[fresh (dom (tasks w)) := Task_init p i s]> (tasks w))
       (log w) (env w)).
Proof. reflexivity. Qed.

Lemma create_task_returns p i s e1 e2 w :
  plugin_add_task p (fresh (dom (tasks w))) (env w) = (Ret tt, e1) ->
  item_add_task i (fresh (dom (tasks w))) e1 = (Ret tt, e2) ->
  create_task p i s w =
  (Ret (fresh (dom (tasks w))),
   mkWorld (<[fresh (dom (tasks w)) := Task_init p i s]> (tasks w))
     (log w ++
      [mkLogRecord ModuleLogger DEBUG
         ("Created " ++
          ("<Task: " ++ plugin_str p e2 ++ " for " ++ item_str i e2 ++ " >"))
         VNone])
     e2).
Proof.
  intros Hplugin Hitem. unfold create_task, Task_repr.
  rewrite bind_new_Task. do 2 step.
  repeat (rewrite ?bind_assoc; step). reflexivity.
Qed.

Lemma create_task_plugin_raises p i s x e1 w :
  plugin_add_task p (fresh (dom (tasks w))) (env w) = (Raise x, e1) ->
  create_task p i s w =
  (Raise x,
   mkWorld (<[fresh (dom (tasks w)) := Task_init p i s]> (tasks w)) (log w) e1).
Proof.
  intros Hplugin. unfold create_task. rewrite bind_new_Task.
  by erewrite bind_call_raise.
Qed.

Lemma create_task_item_raises p i s x e1 e2 w :
  plugin_add_task p (fresh (dom (tasks w))) (env w) = (Ret tt, e1) ->
  item_add_task i (fresh (dom (tasks w))) e1 = (Raise x, e2) ->
  create_task p i s w =
  (Raise x,
   mkWorld (<[fresh (dom (tasks w)) := Task_init p i s]> (tasks w)) (log w) e2).
Proof.
  intros Hplugin Hitem. unfold create_task. rewrite bind_new_Task.
  step. by erewrite bind_call_raise.
Qed.

(** C1, as the code has it. When a registration call raises, [create_task]
    raises the same exception and returns no task. When it is the plugin's
    call that raises, the item's call is not made. When it is the item's
    call that raises, the plugin's registration has been made and is not
    undone: the collaborators' state is the one the item's failing call
    left, starting from the state the plugin's registration produced. *)
Theorem create_task_registration_failure p i s x e' w :
  (plugin_add_task p (fresh (dom (tasks w))) (env w) = (Raise x, e') \/
   exists e1,
     plugin_add_task p (fresh (dom (tasks w))) (env w) = (Ret tt, e1) /\
     item_add_task i (fresh (dom (tasks w))) e1 = (Raise x, e')) ->
  create_task p i s w =
  (Raise x,
   mkWorld (<[fresh (dom (tasks w)) := Task_init p i s]> (tasks w)) (log w) e').
Proof.
  intros [Hplugin | (e1 & Hplugin & Hitem)].
  - by apply create_task_plugin_raises.
  - by apply (create_task_item_raises p i s x e1 e').
Qed.

(** C5. A task returned by the factory is a new object whose visible,
    enabled and checked flags are true and whose accepted flag is false. *)
Theorem create_task_fresh_defaults p i s r w w' :
  create_task p i s w = (Ret r, w') ->
  tasks w !! r = None /\
  exists t,
    tasks w' !! r = Some t /\
    _visible t = VBool true /\
    _enabled t = VBool true /\
    _checked t = VBool true /\
    _accepted t = false /\
    _plugin t = p /\ _item t = i /\ _settings t = s.
Proof.
  intros Hcreate.
  destruct (plugin_add_task p (fresh (dom (tasks w))) (env w))
    as [[[] | x] e1] eqn:Hplugin.
  - destruct (item_add_task i (fresh (dom (tasks w))) e1)
      as [[[] | x] e2] eqn:Hitem.
    + rewrite (create_task_returns p i s e1 e2 w Hplugin Hitem) in Hcreate.
      injection Hcreate as <- <-. split.
      * apply not_elem_of_dom, is_fresh.
      * exists (Task_init p i s). cbn [tasks].
        by rewrite lookup_insert_eq.
    + by rewrite (create_task_item_raises p i s x e1 e2 w Hplugin Hitem)
        in Hcreate.
  - by rewrite (create_task_plugin_raises p i s x e1 w Hplugin) in Hcreate.
Qed.

(** ** Comparison *)

(** C7. [is_same_task_type] answers true exactly when the two tasks are
    bound to the same plugin object, whatever their items and settings,
    and leaves the store as it found it. *)
Theorem is_same_task_type_same_plugin self other t t_other w :
  tasks w !! self = Some t ->
  tasks w !! other = Some t_other ->
  exists b,
    is_same_task_type self other w = (Ret b, w) /\
    (b = true <-> _plugin t = _plugin t_other).
Proof.
  intros Hself Hother. exists (object_eq (_plugin t) (_plugin t_other)).
  split.
  - unfold is_same_task_type. by do 2 step.
  - unfold object_eq. apply bool_decide_eq_true.
Qed.

(** ** Validation *)

(** C8. [validate] hands the task's settings and item to the plugin's
    [run_validate] and gives back its outcome as it is, a value or an
    exception; no attribute of any task changes. *)
Theorem validate_passes_through self t (r : outcome PyVal) e1 w :
  tasks w !! self = Some t ->
  run_validate (_plugin t) (_settings t) (_item t) (env w) = (r, e1) ->
  validate self w = (r, mkWorld (tasks w) (log w) e1).
Proof.
  intros Hlive Hrun. unfold validate, plugin, settings, item.
  do 3 step. unfold call. by rewrite Hrun.
Qed.

(** ** Settings *)

(** C9. Assigning to [settings] replaces the mapping: what is read back is
    the mapping assigned, and a key that only the old mapping had is
    absent from it. *)
Theorem settings_setter_replaces self t s w :
  tasks w !! self = Some t ->
  exists w' s',
    settings_setter self s w = (Ret tt, w') /\
    settings self w' = (Ret s', w') /\
    s' = s /\
    (forall key v, _settings t !! key = Some v -> s !! key = None ->
                   s' !! key = None).
Proof.
  intros Hlive. eexists _, s. split; [| split; [| split]].
  - unfold settings_setter. by erewrite run_setattr.
  - unfold settings, getattr. cbn [tasks]. by rewrite lookup_insert_eq.
  - done.
  - done.
Qed.

(** * Further properties of the class *)

(** ** Acceptance, continued *)

(** X1. When the plugin's [run_accept] raises, [accept] raises the same
    exception, no attribute of any task changes and nothing is logged. *)
Theorem accept_propagates_failure self t x e1 w :
  tasks w !! self = Some t ->
  run_accept (_plugin t) (_settings t) (_item t) (env w) = (Raise x, e1) ->
  exists w',
    accept self w = (Raise x, w') /\
    tasks w' = tasks w /\
    log w' = log w /\
    env w' = e1.
Proof.
  intros Hlive Hrun. eexists.
  split; [exact (accept_raises self t x e1 w Hlive Hrun) |]. done.
Qed.

(** X2. Once the plugin has answered, [accept] ends as the call to the
    plugin's logger ends, returning when it returns and raising what it
    raises; either way the plugin, the item and the settings of the task
    are as they were, and no other task is touched. *)
Theorem accept_keeps_binding self t d (r : outcome unit) e1 e2 w :
  tasks w !! self = Some t ->
  run_accept (_plugin t) (_settings t) (_item t) (env w) = (Ret d, e1) ->
  logger_info (_plugin t)
    (if truthy (dict_get d "accepted")
     then accepted_message (plugin_name (_plugin t) e1)
            (item_name (_item t) e1)
     else rejected_message (plugin_name (_plugin t) e1)
            (item_name (_item t) e1))
    (dict_get d "extra_info") e1 = (r, e2) ->
  exists w' t',
    accept self w = (r, w') /\
    tasks w' !! self = Some t' /\
    _plugin t' = _plugin t /\
    _item t' = _item t /\
    _settings t' = _settings t /\
    (forall other, other <> self -> tasks w' !! other = tasks w !! other).
Proof.
  intros Hlive Hrun Hlog. destruct r as [[] | x].
  - destruct (truthy (dict_get d "accepted")) eqn:Hflag.
    + eexists _, _. split; [by apply (accept_truthy self t d e1 e2 w) |].
      cbn [tasks]. rewrite lookup_insert_eq. repeat (split; [done |]).
      intros other Hother. by rewrite lookup_insert_ne.
    + eexists _, _. split; [by apply (accept_falsy self t d e1 e2 w) |].
      cbn [tasks]. rewrite lookup_insert_eq. repeat (split; [done |]).
      intros other Hother. by rewrite lookup_insert_ne.
  - exists (mkWorld (tasks w) (log w) e2), t.
    split; [by apply (accept_logger_raises self t d x e1 e2 w) |].
    done.
Qed.

(** X3. When the plugin gives the same answer on two passes in a row and
    its logger takes both records, the second [accept] changes no
    attribute of any task. *)
Theorem accept_twice_same_answer self t d e1 e2 e3 e4 w :
  tasks w !! self = Some t ->
  run_accept (_plugin t) (_settings t) (_item t) (env w) = (Ret d, e1) ->
  logger_info (_plugin t)
    (if truthy (dict_get d "accepted")
     then accepted_message (plugin_name (_plugin t) e1)
            (item_name (_item t) e1)
     else rejected_message (plugin_name (_plugin t) e1)
            (item_name (_item t) e1))
    (dict_get d "extra_info") e1 = (Ret tt, e2) ->
  run_accept (_plugin t) (_settings t) (_item t) e2 = (Ret d, e3) ->
  logger_info (_plugin t)
    (if truthy (dict_get d "accepted")
     then accepted_message (plugin_name (_plugin t) e3)
            (item_name (_item t) e3)
     else rejected_message (plugin_name (_plugin t) e3)
            (item_name (_item t) e3))
    (dict_get d "extra_info") e3 = (Ret tt, e4) ->
  exists w1 w2,
    accept self w = (Ret tt, w1) /\
    accept self w1 = (Ret tt, w2) /\
    tasks w2 = tasks w1.
Proof.
  intros Hlive Hrun1 Hlog1 Hrun2 Hlog2.
  destruct (truthy (dict_get d "accepted")) eqn:Hflag.
  - eexists _, _. split; [by apply (accept_truthy self t d e1 e2 w) |].
    split.
    + eapply (accept_truthy self _ d e3 e4);
        [cbn [tasks]; apply lookup_insert_eq | exact Hrun2 | exact Hflag
        | exact Hlog2].
    + cbn [tasks _accepted _checked _plugin _item _settings].
      by rewrite insert_insert_eq.
  - eexists _, _. split; [by apply (accept_falsy self t d e1 e2 w) |].
    split.
    + eapply (accept_falsy self _ d e3 e4);
        [cbn [tasks]; apply lookup_insert_eq | exact Hrun2 | exact Hflag
        | exact Hlog2].
    + cbn [tasks _accepted _checked _plugin _item _settings _visible].
      by rewrite insert_insert_eq.
Qed.

(** X4. A rejection ends the acceptance episode: when the plugin rejects
    a task and accepts it on the next pass, and its logger takes both
    records, the checked flag is taken from the accepting answer again,
    whatever it was before the two passes. *)
Theorem accept_after_rejection_rechecks self t d1 d2 e1 e2 e3 e4 w :
  tasks w !! self = Some t ->
  run_accept (_plugin t) (_settings t) (_item t) (env w) = (Ret d1, e1) ->
  truthy (dict_get d1 "accepted") = false ->
  logger_info (_plugin t)
    (rejected_message (plugin_name (_plugin t) e1) (item_name (_item t) e1))
    (dict_get d1 "extra_info") e1 = (Ret tt, e2) ->
  run_accept (_plugin t) (_settings t) (_item t) e2 = (Ret d2, e3) ->
  truthy (dict_get d2 "accepted") = true ->
  logger_info (_plugin t)
    (accepted_message (plugin_name (_plugin t) e3) (item_name (_item t) e3))
    (dict_get d2 "extra_info") e3 = (Ret tt, e4) ->
  exists w1 w2 t2,
    accept self w = (Ret tt, w1) /\
    accept self w1 = (Ret tt, w2) /\
    tasks w2 !! self = Some t2 /\
    _accepted t2 = true /\
    _checked t2 = dict_get_default d2 "checked" (VBool true) /\
    _visible t2 = dict_get_default d2 "visible" (VBool true) /\
    _enabled t2 = dict_get_default d2 "enabled" (VBool true).
Proof.
  intros Hlive Hrun1 Hno Hlog1 Hrun2 Hyes Hlog2.
  eexists _, _, _. split; [by apply (accept_falsy self t d1 e1 e2 w) |].
  split.
  - eapply (accept_truthy self _ d2 e3 e4);
      [cbn [tasks]; apply lookup_insert_eq | exact Hrun2 | exact Hyes
      | exact Hlog2].
  - cbn [tasks]. by rewrite lookup_insert_eq.
Qed.

(** X5. Over two acceptances in a row of a task that was not accepted,
    with both records taken by the plugin's logger, the checked flag comes
    from the first answer and the visible and enabled flags come from the
    second. *)
Theorem accept_twice_checked_from_first self t d1 d2 e1 e2 e3 e4 w :
  tasks w !! self = Some t ->
  _accepted t = false ->
  run_accept (_plugin t) (_settings t) (_item t) (env w) = (Ret d1, e1) ->
  truthy (dict_get d1 "accepted") = true ->
  logger_info (_plugin t)
    (accepted_message (plugin_name (_plugin t) e1) (item_name (_item t) e1))
    (dict_get d1 "extra_info") e1 = (Ret tt, e2) ->
  run_accept (_plugin t) (_settings t) (_item t) e2 = (Ret d2, e3) ->
  truthy (dict_get d2 "accepted") = true ->
  logger_info (_plugin t)
    (accepted_message (plugin_name (_plugin t) e3) (item_name (_item t) e3))
    (dict_get d2 "extra_info") e3 = (Ret tt, e4) ->
  exists w1 w2 t2,
    accept self w = (Ret tt, w1) /\
    accept self w1 = (Ret tt, w2) /\
    tasks w2 !! self = Some t2 /\
    _accepted t2 = true /\
    _checked t2 = dict_get_default d1 "checked" (VBool true) /\
    _visible t2 = dict_get_default d2 "visible" (VBool true) /\
    _enabled t2 = dict_get_default d2 "enabled" (VBool true).
Proof.
  intros Hlive Hwas Hrun1 Hyes1 Hlog1 Hrun2 Hyes2 Hlog2.
  eexists _, _, _. split; [by apply (accept_truthy self t d1 e1 e2 w) |].
  split.
  - eapply (accept_truthy self _ d2 e3 e4);
      [cbn [tasks]; apply lookup_insert_eq | exact Hrun2 | exact Hyes2
      | exact Hlog2].
  - cbn [tasks]. rewrite lookup_insert_eq. split; [done |].
    cbn [_accepted _checked _visible _enabled]. by rewrite Hwas.
Qed.

(** X16. The record is handed to the plugin's logger before any flag is
    written: when that call raises, [accept] raises the same exception
    and no attribute of any task has changed, so that a task the plugin
    just rejected is still as accepted and enabled as it was. *)
Theorem accept_logger_failure self t d x e1 e2 w :
  tasks w !! self = Some t ->
  run_accept (_plugin t) (_settings t) (_item t) (env w) = (Ret d, e1) ->
  logger_info (_plugin t)
    (if truthy (dict_get d "accepted")
     then accepted_message (plugin_name (_plugin t) e1)
            (item_name (_item t) e1)
     else rejected_message (plugin_name (_plugin t) e1)
            (item_name (_item t) e1))
    (dict_get d "extra_info") e1 = (Raise x, e2) ->
  exists w',
    accept self w = (Raise x, w') /\
    tasks w' = tasks w /\
    log w' = log w /\
    env w' = e2.
Proof.
  intros Hlive Hrun Hlog. eexists.
  split; [exact (accept_logger_raises self t d x e1 e2 w Hlive Hrun Hlog) |].
  done.
Qed.

(** ** Publishing and finalizing *)

(** X6. [publish] hands the task's settings and item to the plugin's
    [run_publish]; it returns [None] whatever the plugin returned, raises
    what the plugin raised, changes no attribute of any task and logs
    nothing. *)
Theorem publish_discards_result self t (r : outcome PyVal) e1 w :
  tasks w !! self = Some t ->
  run_publish (_plugin t) (_settings t) (_item t) (env w) = (r, e1) ->
  publish self w =
  (match r with Ret _ => Ret tt | Raise x => Raise x end,
   mkWorld (tasks w) (log w) e1).
Proof.
  intros Hlive Hrun. unfold publish, plugin, settings, item.
  do 3 step. unfold mbind, M_bind, call. rewrite Hrun. by destruct r.
Qed.

(** X7. [finalize] hands the task's settings and item to the plugin's
    [run_finalize]; it returns [None] whatever the plugin returned, raises
    what the plugin raised, changes no attribute of any task and logs
    nothing. *)
Theorem finalize_discards_result self t (r : outcome PyVal) e1 w :
  tasks w !! self = Some t ->
  run_finalize (_plugin t) (_settings t) (_item t) (env w) = (r, e1) ->
  finalize self w =
  (match r with Ret _ => Ret tt | Raise x => Raise x end,
   mkWorld (tasks w) (log w) e1).
Proof.
  intros Hlive Hrun. unfold finalize, plugin, settings, item.
  do 3 step. unfold mbind, M_bind, call. rewrite Hrun. by destruct r.
Qed.

(** ** The factory, continued *)

(** X8. When both registrations succeed, [create_task] returns a new
    reference, after registering with the plugin first and with the item
    second; it logs one debug record that shows the plugin and the item,
    and every task that existed before is as it was. *)
Theorem create_task_succeeds p i s e1 e2 w :
  plugin_add_task p (fresh (dom (tasks w))) (env w) = (Ret tt, e1) ->
  item_add_task i (fresh (dom (tasks w))) e1 = (Ret tt, e2) ->
  exists r w',
    create_task p i s w = (Ret r, w') /\
    tasks w !! r = None /\
    env w' = e2 /\
    log w' =
    (log w ++
     [mkLogRecord ModuleLogger DEBUG
        ("Created <Task: " ++ plugin_str p e2 ++ " for " ++ item_str i e2
         ++ " >")
        VNone])%list /\
    (forall r' t', tasks w !! r' = Some t' -> tasks w' !! r' = Some t').
Proof.
  intros Hplugin Hitem. eexists _, _.
  split; [exact (create_task_returns p i s e1 e2 w Hplugin Hitem) |].
  assert (tasks w !! fresh (dom (tasks w)) = None) as Hnew
    by apply not_elem_of_dom, is_fresh.
  split; [done |]. split; [done |]. split; [done |].
  intros r' t' Hold. cbn [tasks]. rewrite lookup_insert_ne; [done |].
  intros <-. by rewrite Hnew in Hold.
Qed.

Lemma create_task_inv p i s r w w' :
  create_task p i s w = (Ret r, w') ->
  r = fresh (dom (tasks w)) /\
  tasks w' = <[r := Task_init p i s]> (tasks w).
Proof.
  intros Hcreate.
  destruct (plugin_add_task p (fresh (dom (tasks w))) (env w))
    as [[[] | x] e1] eqn:Hplugin.
  - destruct (item_add_task i (fresh (dom (tasks w))) e1)
      as [[[] | x] e2] eqn:Hitem.
    + rewrite (create_task_returns p i s e1 e2 w Hplugin Hitem) in Hcreate.
      by injection Hcreate as <- <-.
    + by rewrite (create_task_item_raises p i s x e1 e2 w Hplugin Hitem)
        in Hcreate.
  - by rewrite (create_task_plugin_raises p i s x e1 w Hplugin) in Hcreate.
Qed.

(** X9. Two tasks created one after the other are two objects: their
    references differ, and creating the second leaves the first with the
    attributes it was created with. *)
Theorem create_task_twice_distinct p1 i1 s1 p2 i2 s2 r1 r2 w w1 w2 :
  create_task p1 i1 s1 w = (Ret r1, w1) ->
  create_task p2 i2 s2 w1 = (Ret r2, w2) ->
  r1 <> r2 /\
  tasks w2 !! r1 = Some (Task_init p1 i1 s1) /\
  tasks w2 !! r2 = Some (Task_init p2 i2 s2).
Proof.
  intros Hfirst Hsecond.
  apply create_task_inv in Hfirst as [Hr1 Htasks1].
  apply create_task_inv in Hsecond as [Hr2 Htasks2].
  assert (r1 <> r2) as Hne.
  { intros Heq. pose proof (is_fresh (dom (tasks w1))) as Hfresh.
    rewrite <- Hr2, <- Heq, Htasks1 in Hfresh.
    apply Hfresh, elem_of_dom. rewrite lookup_insert_eq. by eexists. }
  split; [done |]. rewrite Htasks2, Htasks1. split.
  - rewrite lookup_insert_ne by done. by rewrite lookup_insert_eq.
  - by rewrite lookup_insert_eq.
Qed.

(** X10. A task that the factory just returned, once the plugin accepts
    it and the plugin's logger takes the record, is accepted with the
    flags of the answer, true for each flag the answer does not hold; the
    plugin was asked with the plugin's own reference, the settings and the
    item that were given to the factory. *)
Theorem create_task_then_accept p i s d r e2 e3 w w1 :
  create_task p i s w = (Ret r, w1) ->
  run_accept p s i (env w1) = (Ret d, e2) ->
  truthy (dict_get d "accepted") = true ->
  logger_info p (accepted_message (plugin_name p e2) (item_name i e2))
    (dict_get d "extra_info") e2 = (Ret tt, e3) ->
  exists w2 t2,
    accept r w1 = (Ret tt, w2) /\
    tasks w2 !! r = Some t2 /\
    _accepted t2 = true /\
    _visible t2 = dict_get_default d "visible" (VBool true) /\
    _enabled t2 = dict_get_default d "enabled" (VBool true) /\
    _checked t2 = dict_get_default d "checked" (VBool true).
Proof.
  intros Hcreate Hrun Hyes Hlog.
  apply create_task_inv in Hcreate as [_ Htasks].
  assert (tasks w1 !! r = Some (Task_init p i s)) as Hlive
    by (rewrite Htasks; apply lookup_insert_eq).
  eexists _, _. split.
  - by apply (accept_truthy r (Task_init p i s) d e2 e3 w1).
  - cbn [tasks]. by rewrite lookup_insert_eq.
Qed.

(** ** Comparison, continued *)

(** X11. On the tasks of a store, [is_same_task_type] is an equivalence
    that never changes the store: every call returns an answer and the
    store it was given; a task has the type of itself, the answer does not
    depend on the order of the two tasks, and two tasks that each have the
    type of a third have the same type. *)
Theorem is_same_task_type_equivalence a b c ta tb tc w :
  tasks w !! a = Some ta ->
  tasks w !! b = Some tb ->
  tasks w !! c = Some tc ->
  exists ab bc ac,
    is_same_task_type a b w = (Ret ab, w) /\
    is_same_task_type b c w = (Ret bc, w) /\
    is_same_task_type a c w = (Ret ac, w) /\
    is_same_task_type a a w = (Ret true, w) /\
    is_same_task_type b a w = (Ret ab, w) /\
    (ab = true -> bc = true -> ac = true).
Proof.
  intros Ha Hb Hc.
  exists (object_eq (_plugin ta) (_plugin tb)),
         (object_eq (_plugin tb) (_plugin tc)),
         (object_eq (_plugin ta) (_plugin tc)).
  unfold is_same_task_type.
  split; [by do 2 step |]. split; [by do 2 step |].
  split; [by do 2 step |]. split; [| split].
  - do 2 step. unfold mret, M_ret, object_eq. by rewrite bool_decide_eq_true_2.
  - do 2 step. unfold mret, M_ret, object_eq.
    do 2 f_equal. apply bool_decide_ext. naive_solver.
  - unfold object_eq. intros Hab Hbc.
    apply bool_decide_eq_true_1 in Hab, Hbc.
    apply bool_decide_eq_true_2. congruence.
Qed.

(** X12. Two tasks that the factory made one after the other have the
    same type exactly when they were made for the same plugin, whatever
    their items and settings. *)
Theorem created_tasks_same_type p1 i1 s1 p2 i2 s2 r1 r2 w w1 w2 :
  create_task p1 i1 s1 w = (Ret r1, w1) ->
  create_task p2 i2 s2 w1 = (Ret r2, w2) ->
  is_same_task_type r1 r2 w2 = (Ret (bool_decide (p1 = p2)), w2).
Proof.
  intros Hfirst Hsecond.
  apply create_task_inv in Hfirst as [Hr1 Htasks1].
  apply create_task_inv in Hsecond as [Hr2 Htasks2].
  assert (r1 <> r2) as Hne.
  { intros Heq. pose proof (is_fresh (dom (tasks w1))) as Hfresh.
    rewrite <- Hr2, <- Heq, Htasks1 in Hfresh.
    apply Hfresh, elem_of_dom. rewrite lookup_insert_eq. by eexists. }
  assert (tasks w2 !! r1 = Some (Task_init p1 i1 s1)) as Hlive1.
  { rewrite Htasks2, Htasks1, lookup_insert_ne by done.
    apply lookup_insert_eq. }
  assert (tasks w2 !! r2 = Some (Task_init p2 i2 s2)) as Hlive2
    by (rewrite Htasks2; apply lookup_insert_eq).
  unfold is_same_task_type. by do 2 step.
Qed.

(** ** Settings, continued *)

(** X13. Assigning to [settings] changes the settings of that task and
    nothing else: its plugin, its item and its four flags are as before,
    every other task is untouched, and neither the log nor the
    collaborators see the assignment. *)
Theorem settings_setter_frame self t s w :
  tasks w !! self = Some t ->
  exists w' t',
    settings_setter self s w = (Ret tt, w') /\
    tasks w' !! self = Some t' /\
    _settings t' = s /\
    _plugin t' = _plugin t /\
    _item t' = _item t /\
    _accepted t' = _accepted t /\
    _visible t' = _visible t /\
    _enabled t' = _enabled t /\
    _checked t' = _checked t /\
    (forall other, other <> self -> tasks w' !! other = tasks w !! other) /\
    log w' = log w /\
    env w' = env w.
Proof.
  intros Hlive. eexists _, _. split.
  - unfold settings_setter. by erewrite run_setattr.
  - cbn [tasks log env]. rewrite lookup_insert_eq.
    repeat (split; [done |]). split; [| done].
    intros other Hother. by rewrite lookup_insert_ne.
Qed.

(** X14. The lifecycle methods hand the plugin the settings the task holds
    when they run: after an assignment to [settings], [validate] returns
    what the plugin's [run_validate] makes of the new settings. *)
Theorem settings_setter_then_validate self t s (r : outcome PyVal) e1 w :
  tasks w !! self = Some t ->
  run_validate (_plugin t) s (_item t) (env w) = (r, e1) ->
  exists w1,
    settings_setter self s w = (Ret tt, w1) /\
    validate self w1 = (r, mkWorld (tasks w1) (log w) e1).
Proof.
  intros Hlive Hrun. eexists. split.
  - unfold settings_setter. by erewrite run_setattr.
  - unfold validate, plugin, settings, item. do 3 step.
    cbn [set_settings_field _plugin _settings _item].
    unfold call. cbn [env]. by rewrite Hrun.
Qed.

(** X15. After an assignment to [settings], [accept] follows the answer
    the plugin's [run_accept] gives for the new settings: once the plugin's
    logger has taken the record, the task is accepted exactly when that
    answer says so, and it keeps the new settings. *)
Theorem settings_setter_then_accept self t s d e1 e2 w :
  tasks w !! self = Some t ->
  run_accept (_plugin t) s (_item t) (env w) = (Ret d, e1) ->
  logger_info (_plugin t)
    (if truthy (dict_get d "accepted")
     then accepted_message (plugin_name (_plugin t) e1)
            (item_name (_item t) e1)
     else rejected_message (plugin_name (_plugin t) e1)
            (item_name (_item t) e1))
    (dict_get d "extra_info") e1 = (Ret tt, e2) ->
  exists w1 w2 t2,
    settings_setter self s w = (Ret tt, w1) /\
    accept self w1 = (Ret tt, w2) /\
    tasks w2 !! self = Some t2 /\
    _accepted t2 = truthy (dict_get d "accepted") /\
    _settings t2 = s.
Proof.
  intros Hlive Hrun Hlog.
  assert (settings_setter self s w =
          (Ret tt,
           mkWorld (<[self := set_settings_field s t]> (tasks w))
             (log w) (env w))) as Hset
    by (unfold settings_setter; by erewrite run_setattr).
  destruct (truthy (dict_get d "accepted")) eqn:Hflag.
  - eexists _, _, _. split; [exact Hset |]. split.
    + eapply (accept_truthy self _ d e1 e2);
        [cbn [tasks]; apply lookup_insert_eq | exact Hrun | exact Hflag
        | exact Hlog].
    + cbn [tasks]. by rewrite lookup_insert_eq.
  - eexists _, _, _. split; [exact Hset |]. split.
    + eapply (accept_falsy self _ d e1 e2);
        [cbn [tasks]; apply lookup_insert_eq | exact Hrun | exact Hflag
        | exact Hlog].
    + cbn [tasks]. by rewrite lookup_insert_eq.
Qed.

End TaskFacts.

(** * The properties at work on the scripted collaborators *)

Section Scenarios.

Import Scripted.

(** C1 fails as stated. The store knows plugin 1 and no item 2: the
    plugin registers the new task, the item's [add_task] raises, the
    creation raises, and the task is in the plugin's collection
    afterwards, where it was not before. *)
Lemma create_task_leaves_plugin_registration :
  registered_with_plugin (env (empty_world (Ret yes_only) (Ret VNone)))
    1%positive 1%positive = false /\
  (exists e1 e2,
     plugin_add_task 1%positive 1%positive
       (env (empty_world (Ret yes_only) (Ret VNone))) = (Ret tt, e1) /\
     item_add_task 2%positive 1%positive e1 = (Raise no_add_task, e2)) /\
  exists w',
    create_task 1%positive 2%positive ∅
      (empty_world (Ret yes_only) (Ret VNone)) = (Raise no_add_task, w') /\
    registered_with_plugin (env w') 1%positive 1%positive = true /\
    registered_with_item (env w') 2%positive 1%positive = false.
Proof.
  split; [by vm_compute |]. split.
  - eexists _, _. split; by vm_compute.
  - eexists. repeat split; by vm_compute.
Qed.

(** The same failing creation, read through the amended statement. *)
Lemma create_task_registration_failure_scenario :
  create_task 1%positive 2%positive ∅
    (empty_world (Ret yes_only) (Ret VNone)) =
  (Raise no_add_task,
   mkWorld {[ 1%positive := Task_init 1%positive 2%positive ∅ ]} []
     (mkEnv {[ 1%positive := [1%positive] ]} {[ 1%positive := [] ]}
        (Ret yes_only) (Ret VNone))).
Proof.
  apply (create_task_registration_failure 1%positive 2%positive ∅
           no_add_task
           (mkEnv {[ 1%positive := [1%positive] ]} {[ 1%positive := [] ]}
              (Ret yes_only) (Ret VNone))
           (empty_world (Ret yes_only) (Ret VNone))).
  right. eexists. split; vm_compute; reflexivity.
Defined.

(** A user unchecked an accepted task; the plugin accepts it again and
    asks for it to be hidden and unchecked: it becomes hidden and stays
    as the user left it. *)
Lemma accept_again_keeps_checked_scenario :
  exists w' t',
    accept 1%positive (world_with unchecked_task (Ret yes_hidden) (Ret VNone))
    = (Ret tt, w') /\
    tasks w' !! 1%positive = Some t' /\
    _checked t' = VBool false /\
    _visible t' = VBool false /\
    _enabled t' = VBool true /\
    _accepted t' = true.
Proof.
  exact (accept_again_keeps_checked 1%positive unchecked_task yes_hidden
           (env (world_with unchecked_task (Ret yes_hidden) (Ret VNone)))
           (env (world_with unchecked_task (Ret yes_hidden) (Ret VNone)))
           (world_with unchecked_task (Ret yes_hidden) (Ret VNone))
           eq_refl eq_refl eq_refl eq_refl eq_refl).
Defined.

(** The same user-unchecked, accepted task is rejected. *)
Lemma accept_rejection_forces_off_scenario :
  exists w' t',
    accept 1%positive (world_with unchecked_task (Ret no_only) (Ret VNone))
    = (Ret tt, w') /\
    tasks w' !! 1%positive = Some t' /\
    _accepted t' = false /\
    _enabled t' = VBool false /\
    _checked t' = VBool false /\
    _visible t' = VBool true.
Proof.
  exact (accept_rejection_forces_off 1%positive unchecked_task no_only
           (env (world_with unchecked_task (Ret no_only) (Ret VNone)))
           (env (world_with unchecked_task (Ret no_only) (Ret VNone)))
           (world_with unchecked_task (Ret no_only) (Ret VNone))
           eq_refl eq_refl eq_refl eq_refl).
Defined.

(** A new task is accepted, first with an answer that hides and unchecks
    it, then with an answer made of the accepted flag alone. *)
Lemma accept_first_time_takes_answer_scenario :
  (exists w' t',
     accept 1%positive
       (world_with (Task_init 1%positive 1%positive ∅) (Ret yes_hidden)
          (Ret VNone))
     = (Ret tt, w') /\
     tasks w' !! 1%positive = Some t' /\
     _accepted t' = true /\
     (forall v, yes_hidden !! "visible" = Some v -> _visible t' = v) /\
     (yes_hidden !! "visible" = None -> _visible t' = VBool true) /\
     (forall v, yes_hidden !! "enabled" = Some v -> _enabled t' = v) /\
     (yes_hidden !! "enabled" = None -> _enabled t' = VBool true) /\
     (forall v, yes_hidden !! "checked" = Some v -> _checked t' = v) /\
     (yes_hidden !! "checked" = None -> _checked t' = VBool true) /\
     (yes_hidden = {[ "accepted" := VBool true ]} ->
      _visible t' = VBool true /\ _enabled t' = VBool true /\
      _checked t' = VBool true)) /\
  (exists w' t',
     accept 1%positive
       (world_with (Task_init 1%positive 1%positive ∅) (Ret yes_only)
          (Ret VNone))
     = (Ret tt, w') /\
     tasks w' !! 1%positive = Some t' /\
     _accepted t' = true /\
     (forall v, yes_only !! "visible" = Some v -> _visible t' = v) /\
     (yes_only !! "visible" = None -> _visible t' = VBool true) /\
     (forall v, yes_only !! "enabled" = Some v -> _enabled t' = v) /\
     (yes_only !! "enabled" = None -> _enabled t' = VBool true) /\
     (forall v, yes_only !! "checked" = Some v -> _checked t' = v) /\
     (yes_only !! "checked" = None -> _checked t' = VBool true) /\
     (yes_only = {[ "accepted" := VBool true ]} ->
      _visible t' = VBool true /\ _enabled t' = VBool true /\
      _checked t' = VBool true)).
Proof.
  split.
  - exact (accept_first_time_takes_answer 1%positive
             (Task_init 1%positive 1%positive ∅) yes_hidden
             (env (world_with (Task_init 1%positive 1%positive ∅)
                     (Ret yes_hidden) (Ret VNone)))
             (env (world_with (Task_init 1%positive 1%positive ∅)
                     (Ret yes_hidden) (Ret VNone)))
             (world_with (Task_init 1%positive 1%positive ∅)
                (Ret yes_hidden) (Ret VNone))
             eq_refl eq_refl eq_refl eq_refl eq_refl).
  - exact (accept_first_time_takes_answer 1%positive
             (Task_init 1%positive 1%positive ∅) yes_only
             (env (world_with (Task_init 1%positive 1%positive ∅)
                     (Ret yes_only) (Ret VNone)))
             (env (world_with (Task_init 1%positive 1%positive ∅)
                     (Ret yes_only) (Ret VNone)))
             (world_with (Task_init 1%positive 1%positive ∅)
                (Ret yes_only) (Ret VNone))
             eq_refl eq_refl eq_refl eq_refl eq_refl).
Defined.

(** The answer has no accepted flag; its payload is a mapping, which the
    logger takes. *)
Lemma accept_missing_flag_rejects_scenario :
  exists w' t',
    accept 1%positive (world_with unchecked_task (Ret no_flag) (Ret VNone))
    = (Ret tt, w') /\
    tasks w' !! 1%positive = Some t' /\
    _accepted t' = false /\
    _enabled t' = VBool false /\
    _checked t' = VBool false /\
    _visible t' = VBool true /\
    log w' =
    [mkLogRecord (PluginLogger 1%positive) INFO
       "Plugin: 'publish' - Rejected: scene"
       (VDict [("reason", VStr "skipped")])].
Proof.
  exact (accept_missing_flag_rejects 1%positive unchecked_task no_flag
           (env (world_with unchecked_task (Ret no_flag) (Ret VNone)))
           (env (world_with unchecked_task (Ret no_flag) (Ret VNone)))
           (world_with unchecked_task (Ret no_flag) (Ret VNone))
           eq_refl eq_refl eq_refl eq_refl).
Defined.

(** The answer holds the number 7 under the accepted key. *)
Lemma accept_branches_on_truth_value_scenario :
  (exists w' t',
     accept 1%positive
       (world_with (Task_init 1%positive 1%positive ∅) (Ret yes_as_number)
          (Ret VNone))
     = (Ret tt, w') /\
     tasks w' !! 1%positive = Some t' /\
     _accepted t' = true /\
     log w' =
     [mkLogRecord (PluginLogger 1%positive) INFO
        "Plugin: 'publish' - Accepted: scene" VNone]) /\
  (forall n, n <> 0%Z -> truthy (VInt n) = true) /\
  (forall s, s <> "" -> truthy (VStr s) = true) /\
  truthy (VBool true) = true /\
  truthy (VBool false) = false /\
  truthy VNone = false /\
  truthy (VInt 0) = false /\
  truthy (VStr "") = false.
Proof.
  exact (accept_branches_on_truth_value 1%positive
           (Task_init 1%positive 1%positive ∅) yes_as_number
           (env (world_with (Task_init 1%positive 1%positive ∅)
                   (Ret yes_as_number) (Ret VNone)))
           (env (world_with (Task_init 1%positive 1%positive ∅)
                   (Ret yes_as_number) (Ret VNone)))
           (world_with (Task_init 1%positive 1%positive ∅)
              (Ret yes_as_number) (Ret VNone))
           eq_refl eq_refl eq_refl).
Defined.

(** A creation that succeeds. *)
Lemma create_task_fresh_defaults_scenario :
  create_task 1%positive 1%positive ∅ (empty_world (Ret yes_only) (Ret VNone))
  = (Ret 1%positive, after_creation) /\
  tasks (empty_world (Ret yes_only) (Ret VNone)) !! 1%positive = None /\
  exists t,
    tasks after_creation !! 1%positive = Some t /\
    _visible t = VBool true /\
    _enabled t = VBool true /\
    _checked t = VBool true /\
    _accepted t = false /\
    _plugin t = 1%positive /\ _item t = 1%positive /\ _settings t = ∅.
Proof.
  split; [vm_compute; reflexivity |].
  apply (create_task_fresh_defaults 1%positive 1%positive ∅ 1%positive
           (empty_world (Ret yes_only) (Ret VNone)) after_creation).
  vm_compute; reflexivity.
Defined.

(** Tasks 1 and 2 share their plugin and differ in item and settings;
    task 3 has another plugin. *)
Lemma is_same_task_type_same_plugin_scenario :
  (exists b,
     is_same_task_type 1%positive 2%positive three_tasks
     = (Ret b, three_tasks) /\
     (b = true <-> 1%positive = 1%positive)) /\
  (exists b,
     is_same_task_type 1%positive 3%positive three_tasks
     = (Ret b, three_tasks) /\
     (b = true <-> 1%positive = 2%positive)).
Proof.
  split.
  - apply (is_same_task_type_same_plugin 1%positive 2%positive
             (Task_init 1%positive 1%positive ∅)
             (Task_init 1%positive 2%positive {[ "depth" := VInt 3 ]})
             three_tasks);
      vm_compute; reflexivity.
  - apply (is_same_task_type_same_plugin 1%positive 3%positive
             (Task_init 1%positive 1%positive ∅)
             (Task_init 2%positive 1%positive ∅)
             three_tasks);
      vm_compute; reflexivity.
Defined.

(** A plugin that finds the task invalid, and one whose validation
    raises. *)
Lemma validate_passes_through_scenario :
  validate 1%positive
    (world_with unchecked_task (Ret yes_only) (Ret (VBool false)))
  = (Ret (VBool false),
     world_with unchecked_task (Ret yes_only) (Ret (VBool false))) /\
  validate 1%positive
    (world_with unchecked_task (Ret yes_only)
       (Raise (Exc "ValueError" "no scene file")))
  = (Raise (Exc "ValueError" "no scene file"),
     world_with unchecked_task (Ret yes_only)
       (Raise (Exc "ValueError" "no scene file"))).
Proof.
  split.
  - apply (validate_passes_through 1%positive unchecked_task
             (Ret (VBool false))
             (env (world_with unchecked_task (Ret yes_only)
                     (Ret (VBool false)))));
      vm_compute; reflexivity.
  - apply (validate_passes_through 1%positive unchecked_task
             (Raise (Exc "ValueError" "no scene file"))
             (env (world_with unchecked_task (Ret yes_only)
                     (Raise (Exc "ValueError" "no scene file")))));
      vm_compute; reflexivity.
Defined.

(** Settings holding "old" are replaced by settings holding "new". *)
Lemma settings_setter_replaces_scenario :
  exists w' s',
    settings_setter 1%positive {[ "new" := VInt 2 ]}
      (world_with task_with_old_settings (Ret yes_only) (Ret VNone))
    = (Ret tt, w') /\
    settings 1%positive w' = (Ret s', w') /\
    s' = {[ "new" := VInt 2 ]} /\
    (forall key v,
       ({[ "old" := VInt 1 ]} : gmap string PyVal) !! key = Some v ->
       ({[ "new" := VInt 2 ]} : gmap string PyVal) !! key = None ->
       s' !! key = None).
Proof.
  apply (settings_setter_replaces 1%positive task_with_old_settings
           {[ "new" := VInt 2 ]}
           (world_with task_with_old_settings (Ret yes_only) (Ret VNone))).
  vm_compute; reflexivity.
Defined.

End Scenarios.

(** * The further properties at work *)

Section MoreScenarios.

(** The plugin has no answer left and raises. *)
Lemma accept_propagates_failure_scenario :
  exists w',
    accept 1%positive (Replay.world_with Scripted.unchecked_task [])
    = (Raise Replay.exhausted, w') /\
    tasks w' = tasks (Replay.world_with Scripted.unchecked_task []) /\
    log w' = [] /\
    env w' = [].
Proof.
  apply (accept_propagates_failure 1%positive Scripted.unchecked_task
           Replay.exhausted [] (Replay.world_with Scripted.unchecked_task []));
    vm_compute; reflexivity.
Defined.

(** Task 1 of three is accepted: its binding stays, tasks 2 and 3 too.
    Then an answer whose payload is a string: the logger raises. *)
Lemma accept_keeps_binding_scenario :
  (exists w' t',
     accept 1%positive Scripted.three_tasks = (Ret tt, w') /\
     tasks w' !! 1%positive = Some t' /\
     _plugin t' = 1%positive /\
     _item t' = 1%positive /\
     _settings t' = ∅ /\
     (forall other, other <> 1%positive ->
        tasks w' !! other = tasks Scripted.three_tasks !! other)) /\
  (exists w' t',
     accept 1%positive
       (Replay.world_with Scripted.unchecked_task [Replay.yes_with_note])
     = (Raise (Exc "TypeError" "extra is not a mapping"), w') /\
     tasks w' !! 1%positive = Some t' /\
     _plugin t' = 1%positive /\
     _item t' = 1%positive /\
     _settings t' = ∅ /\
     (forall other, other <> 1%positive ->
        tasks w' !! other
        = tasks (Replay.world_with Scripted.unchecked_task
                   [Replay.yes_with_note]) !! other)).
Proof.
  split.
  - exact (accept_keeps_binding 1%positive
             (Task_init 1%positive 1%positive ∅) Scripted.yes_only (Ret tt)
             (env Scripted.three_tasks) (env Scripted.three_tasks)
             Scripted.three_tasks eq_refl eq_refl eq_refl).
  - exact (accept_keeps_binding 1%positive Scripted.unchecked_task
             Replay.yes_with_note
             (Raise (Exc "TypeError" "extra is not a mapping")) [] []
             (Replay.world_with Scripted.unchecked_task
                [Replay.yes_with_note])
             eq_refl eq_refl eq_refl).
Defined.

(** The same hiding answer, twice. *)
Lemma accept_twice_same_answer_scenario :
  exists w1 w2,
    accept 1%positive
      (Replay.world_with (Task_init 1%positive 1%positive ∅)
         [Scripted.yes_hidden; Scripted.yes_hidden]) = (Ret tt, w1) /\
    accept 1%positive w1 = (Ret tt, w2) /\
    tasks w2 = tasks w1.
Proof.
  exact (accept_twice_same_answer 1%positive
           (Task_init 1%positive 1%positive ∅) Scripted.yes_hidden
           [Scripted.yes_hidden] [Scripted.yes_hidden] [] []
           (Replay.world_with (Task_init 1%positive 1%positive ∅)
              [Scripted.yes_hidden; Scripted.yes_hidden])
           eq_refl eq_refl eq_refl eq_refl eq_refl).
Defined.

(** An accepted, checked task is rejected, then accepted with an answer
    that unchecks it. *)
Lemma accept_after_rejection_rechecks_scenario :
  exists w1 w2 t2,
    accept 1%positive
      (Replay.world_with
         (mkTask 1 1 ∅ true (VBool true) (VBool true) (VBool true))
         [Scripted.no_flag; Scripted.yes_hidden]) = (Ret tt, w1) /\
    accept 1%positive w1 = (Ret tt, w2) /\
    tasks w2 !! 1%positive = Some t2 /\
    _accepted t2 = true /\
    _checked t2 = VBool false /\
    _visible t2 = VBool false /\
    _enabled t2 = VBool true.
Proof.
  exact (accept_after_rejection_rechecks 1%positive
           (mkTask 1 1 ∅ true (VBool true) (VBool true) (VBool true))
           Scripted.no_flag Scripted.yes_hidden
           [Scripted.yes_hidden] [Scripted.yes_hidden] [] []
           (Replay.world_with
              (mkTask 1 1 ∅ true (VBool true) (VBool true) (VBool true))
              [Scripted.no_flag; Scripted.yes_hidden])
           eq_refl eq_refl eq_refl eq_refl eq_refl eq_refl eq_refl).
Defined.

(** A new task is accepted with an answer that hides and unchecks it,
    then with the accepted flag alone: it is shown again and stays
    unchecked. *)
Lemma accept_twice_checked_from_first_scenario :
  exists w1 w2 t2,
    accept 1%positive
      (Replay.world_with (Task_init 1%positive 1%positive ∅)
         [Scripted.yes_hidden; Scripted.yes_only]) = (Ret tt, w1) /\
    accept 1%positive w1 = (Ret tt, w2) /\
    tasks w2 !! 1%positive = Some t2 /\
    _accepted t2 = true /\
    _checked t2 = VBool false /\
    _visible t2 = VBool true /\
    _enabled t2 = VBool true.
Proof.
  exact (accept_twice_checked_from_first 1%positive
           (Task_init 1%positive 1%positive ∅)
           Scripted.yes_hidden Scripted.yes_only
           [Scripted.yes_only] [Scripted.yes_only] [] []
           (Replay.world_with (Task_init 1%positive 1%positive ∅)
              [Scripted.yes_hidden; Scripted.yes_only])
           eq_refl eq_refl eq_refl eq_refl eq_refl eq_refl eq_refl eq_refl).
Defined.

(** An accepted, enabled task is rejected with a string for payload: the
    logger raises and the task is as it was. *)
Lemma accept_logger_failure_scenario :
  exists w',
    accept 1%positive
      (Replay.world_with
         (mkTask 1 1 ∅ true (VBool true) (VBool true) (VBool true))
         [Replay.no_with_note])
    = (Raise (Exc "TypeError" "extra is not a mapping"), w') /\
    tasks w'
    = {[ 1%positive :=
           mkTask 1 1 ∅ true (VBool true) (VBool true) (VBool true) ]} /\
    log w' = [] /\
    env w' = [].
Proof.
  exact (accept_logger_failure 1%positive
           (mkTask 1 1 ∅ true (VBool true) (VBool true) (VBool true))
           Replay.no_with_note
           (Exc "TypeError" "extra is not a mapping") [] []
           (Replay.world_with
              (mkTask 1 1 ∅ true (VBool true) (VBool true) (VBool true))
              [Replay.no_with_note])
           eq_refl eq_refl eq_refl).
Defined.

(** The plugin's [run_publish] returns a string; [publish] returns
    [None]. *)
Lemma publish_discards_result_scenario :
  publish 1%positive (Replay.world_with Scripted.unchecked_task [])
  = (Ret tt, Replay.world_with Scripted.unchecked_task []).
Proof.
  exact (publish_discards_result 1%positive Scripted.unchecked_task
           (Ret (VStr "published")) []
           (Replay.world_with Scripted.unchecked_task [])
           eq_refl eq_refl).
Defined.

(** The plugin's [run_finalize] raises. *)
Lemma finalize_discards_result_scenario :
  finalize 1%positive (Replay.world_with Scripted.unchecked_task [])
  = (Raise (Exc "IOError" "disk full"),
     Replay.world_with Scripted.unchecked_task []).
Proof.
  exact (finalize_discards_result 1%positive Scripted.unchecked_task
           (Raise (Exc "IOError" "disk full")) []
           (Replay.world_with Scripted.unchecked_task [])
           eq_refl eq_refl).
Defined.

(** A creation on a store that knows plugin 1 and item 1. *)
Lemma create_task_succeeds_scenario :
  exists r w',
    create_task 1%positive 1%positive ∅
      (Scripted.empty_world (Ret Scripted.yes_only) (Ret VNone))
    = (Ret r, w') /\
    tasks (Scripted.empty_world (Ret Scripted.yes_only) (Ret VNone)) !! r
    = None /\
    env w' = env Scripted.after_creation /\
    log w' =
    [mkLogRecord ModuleLogger DEBUG
       "Created <Task: <Plugin publish> for <Item scene> >" VNone] /\
    (forall r' t',
       tasks (Scripted.empty_world (Ret Scripted.yes_only) (Ret VNone)) !! r'
       = Some t' ->
       tasks w' !! r' = Some t').
Proof.
  exact (create_task_succeeds 1%positive 1%positive ∅
           (Scripted.mkEnv {[ 1%positive := [1%positive] ]}
              {[ 1%positive := [] ]} (Ret Scripted.yes_only) (Ret VNone))
           (env Scripted.after_creation)
           (Scripted.empty_world (Ret Scripted.yes_only) (Ret VNone))
           eq_refl eq_refl).
Defined.

(** Two creations in a row, for the same plugin and two items. *)
Lemma create_task_twice_distinct_scenario :
  1%positive <> 2%positive /\
  tasks Replay.two_tasks !! 1%positive
  = Some (Task_init 1%positive 1%positive ∅) /\
  tasks Replay.two_tasks !! 2%positive
  = Some (Task_init 1%positive 2%positive {[ "depth" := VInt 3 ]}).
Proof.
  apply (create_task_twice_distinct
           1%positive 1%positive ∅
           1%positive 2%positive {[ "depth" := VInt 3 ]}
           1%positive 2%positive
           Replay.no_task Replay.one_task Replay.two_tasks);
    vm_compute; reflexivity.
Defined.

(** A task is created and accepted at once. *)
Lemma create_task_then_accept_scenario :
  exists w2 t2,
    accept 1%positive Scripted.after_creation = (Ret tt, w2) /\
    tasks w2 !! 1%positive = Some t2 /\
    _accepted t2 = true /\
    _visible t2 = VBool true /\
    _enabled t2 = VBool true /\
    _checked t2 = VBool true.
Proof.
  apply (create_task_then_accept 1%positive 1%positive ∅ Scripted.yes_only
           1%positive (env Scripted.after_creation)
           (env Scripted.after_creation)
           (Scripted.empty_world (Ret Scripted.yes_only) (Ret VNone))
           Scripted.after_creation);
    vm_compute; reflexivity.
Defined.

(** Three tasks of one plugin on three items; then tasks 1 and 2 of
    plugin 1 with task 3 of plugin 2 between them. *)
Lemma is_same_task_type_equivalence_scenario :
  (exists ab bc ac,
     is_same_task_type 1%positive 2%positive Replay.three_alike
     = (Ret ab, Replay.three_alike) /\
     is_same_task_type 2%positive 3%positive Replay.three_alike
     = (Ret bc, Replay.three_alike) /\
     is_same_task_type 1%positive 3%positive Replay.three_alike
     = (Ret ac, Replay.three_alike) /\
     is_same_task_type 1%positive 1%positive Replay.three_alike
     = (Ret true, Replay.three_alike) /\
     is_same_task_type 2%positive 1%positive Replay.three_alike
     = (Ret ab, Replay.three_alike) /\
     (ab = true -> bc = true -> ac = true)) /\
  (exists ab bc ac,
     is_same_task_type 1%positive 3%positive Scripted.three_tasks
     = (Ret ab, Scripted.three_tasks) /\
     is_same_task_type 3%positive 2%positive Scripted.three_tasks
     = (Ret bc, Scripted.three_tasks) /\
     is_same_task_type 1%positive 2%positive Scripted.three_tasks
     = (Ret ac, Scripted.three_tasks) /\
     is_same_task_type 1%positive 1%positive Scripted.three_tasks
     = (Ret true, Scripted.three_tasks) /\
     is_same_task_type 3%positive 1%positive Scripted.three_tasks
     = (Ret ab, Scripted.three_tasks) /\
     (ab = true -> bc = true -> ac = true)).
Proof.
  split.
  - apply (is_same_task_type_equivalence 1%positive 2%positive 3%positive
             (Task_init 1%positive 1%positive ∅)
             (Task_init 1%positive 2%positive ∅)
             (Task_init 1%positive 3%positive ∅)
             Replay.three_alike);
      vm_compute; reflexivity.
  - apply (is_same_task_type_equivalence 1%positive 3%positive 2%positive
             (Task_init 1%positive 1%positive ∅)
             (Task_init 2%positive 1%positive ∅)
             (Task_init 1%positive 2%positive {[ "depth" := VInt 3 ]})
             Scripted.three_tasks);
      vm_compute; reflexivity.
Defined.

(** The same plugin for two items, then two plugins for one item. *)
Lemma created_tasks_same_type_scenario :
  is_same_task_type 1%positive 2%positive Replay.two_tasks
  = (Ret (bool_decide (1%positive = 1%positive)), Replay.two_tasks) /\
  is_same_task_type 1%positive 2%positive Replay.two_plugins
  = (Ret (bool_decide (1%positive = 2%positive)), Replay.two_plugins).
Proof.
  split.
  - apply (created_tasks_same_type
             1%positive 1%positive ∅
             1%positive 2%positive {[ "depth" := VInt 3 ]}
             1%positive 2%positive
             Replay.no_task Replay.one_task Replay.two_tasks);
      vm_compute; reflexivity.
  - apply (created_tasks_same_type
             1%positive 1%positive ∅
             2%positive 1%positive ∅
             1%positive 2%positive
             Replay.no_task Replay.one_task Replay.two_plugins);
      vm_compute; reflexivity.
Defined.

(** Task 2 of three receives new settings. *)
Lemma settings_setter_frame_scenario :
  exists w' t',
    settings_setter 2%positive {[ "depth" := VInt 5 ]} Scripted.three_tasks
    = (Ret tt, w') /\
    tasks w' !! 2%positive = Some t' /\
    _settings t' = {[ "depth" := VInt 5 ]} /\
    _plugin t' = 1%positive /\
    _item t' = 2%positive /\
    _accepted t' = false /\
    _visible t' = VBool true /\
    _enabled t' = VBool true /\
    _checked t' = VBool true /\
    (forall other, other <> 2%positive ->
       tasks w' !! other = tasks Scripted.three_tasks !! other) /\
    log w' = log Scripted.three_tasks /\
    env w' = env Scripted.three_tasks.
Proof.
  apply (settings_setter_frame 2%positive
           (Task_init 1%positive 2%positive {[ "depth" := VInt 3 ]})
           {[ "depth" := VInt 5 ]} Scripted.three_tasks).
  vm_compute; reflexivity.
Defined.

(** The plugin validates the draft settings; once the final settings are
    assigned, it finds the task invalid. *)
Lemma settings_setter_then_validate_scenario :
  validate 1%positive
    (Echo.world_with (Task_init 1%positive 1%positive Echo.draft))
  = (Ret (VBool true),
     Echo.world_with (Task_init 1%positive 1%positive Echo.draft)) /\
  exists w1,
    settings_setter 1%positive Echo.final
      (Echo.world_with (Task_init 1%positive 1%positive Echo.draft))
    = (Ret tt, w1) /\
    validate 1%positive w1 = (Ret (VBool false), mkWorld (tasks w1) [] tt).
Proof.
  split; [vm_compute; reflexivity |].
  exact (settings_setter_then_validate 1%positive
           (Task_init 1%positive 1%positive Echo.draft) Echo.final
           (Ret (VBool false)) tt
           (Echo.world_with (Task_init 1%positive 1%positive Echo.draft))
           eq_refl eq_refl).
Defined.

(** The plugin rejects under the draft settings; once the final settings
    are assigned, it accepts. *)
Lemma settings_setter_then_accept_scenario :
  exists w1 w2 t2,
    settings_setter 1%positive Echo.final
      (Echo.world_with (Task_init 1%positive 1%positive Echo.draft))
    = (Ret tt, w1) /\
    accept 1%positive w1 = (Ret tt, w2) /\
    tasks w2 !! 1%positive = Some t2 /\
    _accepted t2 = true /\
    _settings t2 = Echo.final.
Proof.
  exact (settings_setter_then_accept 1%positive
           (Task_init 1%positive 1%positive Echo.draft) Echo.final
           Echo.final tt tt
           (Echo.world_with (Task_init 1%positive 1%positive Echo.draft))
           eq_refl eq_refl eq_refl).
Defined.

End MoreScenarios.
